(** * funkcje-skr-tu: the hashing helpers of [main.py]

    A shallow embedding of [hash_with_algorithm], [download_file],
    [hash_file] and [generate_hash_speed_test], and the properties of them
    that the specification states.

    The functions of [main.py] talk to four things outside the program: the
    [hashlib] primitives, the clock behind [timeit.default_timer], the file
    system and the network.  The last three are fields of a [World] that the
    functions pass along; [hashlib] is an interface ([Hashlib]) the whole
    development is parametrised by.  Python exceptions are an explicit
    outcome, and a raised exception keeps the world reached so far. *)

From Stdlib Require Import ZArith Lia.
From Stdlib Require Strings.Byte Strings.Ascii.
From stdpp Require Import base strings gmap list.

Local Open Scope Z_scope.

(** ** Values *)

(** A Python [bytes] object. *)
Abbreviation bytes := (list Byte.byte).

(** The exceptions the modelled calls can raise.  [FileNotFoundError] and
    [PermissionError] are [OSError]s; all six are subclasses of
    [Exception]. *)
Inductive exn : Type :=
  | TypeError (msg : string)
  | ValueError (msg : string)
  | OSError (msg : string)
  | URLError (msg : string)
  | OverflowError (msg : string)
  | MemoryError (msg : string).

(** [str(e)], as the f-strings of the handlers print it. *)
Definition exn_msg (e : exn) : string :=
  match e with
  | TypeError m | ValueError m | OSError m | URLError m
  | OverflowError m | MemoryError m => m
  end.

Definition is_TypeError (e : exn) : bool :=
  match e with TypeError _ => true | _ => false end.

(** ** The world *)

(** What a path holds; a path that is no key of the file map does not exist. *)
Inductive node : Type :=
  | Regular (content : bytes)
  | Denied.

(** What [urlopen] finds behind a url; a url that is no key cannot be
    reached. *)
Inductive reply : Type :=
  | Body (content : bytes)
  | Broken (reason : string).

Record World : Type := mkWorld {
  (** the readings [timeit.default_timer] returns, in the order of the calls *)
  w_timer : nat -> Z;
  (** the number of readings taken so far *)
  w_reads : nat;
  w_files : gmap string node;
  (** bytes that can still be written to the disk *)
  w_free : nat;
  w_net : gmap string reply;
  (** the lines printed so far, oldest first *)
  w_stdout : list string;
  (** every [(algorithm, data)] handed to a hasher's [update], oldest first *)
  w_fed : list (string * bytes);
  (** the length of the longest bytes object the memory can hold *)
  w_memory : Z
}.

Definition tick (w : World) : World :=
  mkWorld (w_timer w) (S (w_reads w)) (w_files w) (w_free w) (w_net w)
          (w_stdout w) (w_fed w) (w_memory w).

Definition put_file (path : string) (n : node) (w : World) : World :=
  mkWorld (w_timer w) (w_reads w) (<[path := n]> (w_files w)) (w_free w)
          (w_net w) (w_stdout w) (w_fed w) (w_memory w).

Definition put_line (line : string) (w : World) : World :=
  mkWorld (w_timer w) (w_reads w) (w_files w) (w_free w) (w_net w)
          (w_stdout w ++ [line]) (w_fed w) (w_memory w).

Definition put_fed (algorithm : string) (data : bytes) (w : World) : World :=
  mkWorld (w_timer w) (w_reads w) (w_files w) (w_free w) (w_net w)
          (w_stdout w) (w_fed w ++ [(algorithm, data)]) (w_memory w).

(** The clock never runs backwards. *)
Definition monotone_timer (w : World) : Prop :=
  forall i j : nat, (i <= j)%nat -> w_timer w i <= w_timer w j.

(** ** Computations *)

Inductive outcome (A : Type) : Type :=
  | Ok (a : A)
  | Raise (e : exn).
Arguments Ok {A} a.
Arguments Raise {A} e.

Definition Py (A : Type) : Type := World -> outcome A * World.

Definition py_ret {A} (a : A) : Py A := fun w => (Ok a, w).

Definition py_bind {A B} (m : Py A) (k : A -> Py B) : Py B :=
  fun w =>
    match m w with
    | (Ok a, w1) => k a w1
    | (Raise e, w1) => (Raise e, w1)
    end.

Definition raise {A} (e : exn) : Py A := fun w => (Raise e, w).

(** [try: body / except <caught> as e: handler e]. *)
Definition try_except {A} (body : Py A) (caught : exn -> bool)
    (handler : exn -> Py A) : Py A :=
  fun w =>
    match body w with
    | (Ok a, w1) => (Ok a, w1)
    | (Raise e, w1) => if caught e then handler e w1 else (Raise e, w1)
    end.

(** [except Exception]: every exception of the model. *)
Definition any_Exception (e : exn) : bool := true.

Declare Scope py_scope.
Delimit Scope py_scope with py.
Notation "x <- m ;; k" := (py_bind m (fun x => k))
  (at level 100, m at next level, right associativity) : py_scope.
Notation "m ;;; k" := (py_bind m (fun _ => k))
  (at level 100, right associativity) : py_scope.
Local Open Scope py_scope.

(** ** The environment's calls *)

(** [timeit.default_timer()]. *)
Definition default_timer : Py Z :=
  fun w => (Ok (w_timer w (w_reads w)), tick w).

(** [print(line)]. *)
Definition print (line : string) : Py unit :=
  fun w => (Ok tt, put_line line w).

(** [with open(filepath, 'rb') as file: data = file.read()]. *)
Definition read_binary (filepath : string) : Py bytes :=
  fun w =>
    match w_files w !! filepath with
    | Some (Regular content) => (Ok content, w)
    | Some Denied =>
        (Raise (OSError ("[Errno 13] Permission denied: '" +:+ filepath +:+ "'")), w)
    | None =>
        (Raise (OSError ("[Errno 2] No such file or directory: '" +:+ filepath +:+ "'")), w)
    end.

(** [open(filename, 'wb')]: creates the file or empties it. *)
Definition open_wb (filename : string) : Py string :=
  fun w =>
    match w_files w !! filename with
    | Some Denied =>
        (Raise (OSError ("[Errno 13] Permission denied: '" +:+ filename +:+ "'")), w)
    | _ => (Ok filename, put_file filename (Regular []) w)
    end.

(** [out_file.write(data)] on a file just opened with ['wb'], with the
    flush of the [with] block: when the data does not fit, the bytes that
    did fit stay in the file and the call raises. *)
Definition write (out_file : string) (data : bytes) : Py unit :=
  fun w =>
    if decide (length data <= w_free w)%nat
    then (Ok tt, put_file out_file (Regular data) w)
    else (Raise (OSError "[Errno 28] No space left on device"),
          put_file out_file (Regular (take (w_free w) data)) w).

(** [urlopen(url)]. *)
Definition urlopen (url : string) : Py reply :=
  fun w =>
    match w_net w !! url with
    | Some r => (Ok r, w)
    | None => (Raise (URLError ("<urlopen error " +:+ url +:+ ">")), w)
    end.

(** [response.read()]. *)
Definition response_read (response : reply) : Py bytes :=
  match response with
  | Body content => py_ret content
  | Broken reason => raise (OSError reason)
  end.

(** The bounds of an index on a 64-bit CPython, [-sys.maxsize - 1] and
    [sys.maxsize]. *)
Definition min_index : Z := - 2 ^ 63.
Definition max_index : Z := 2 ^ 63 - 1.

(** [b * size] for a bytes object [b] of one byte: the byte repeated, no
    byte at all when [size] is below one; [OverflowError] when [size] is no
    index, [MemoryError] when the memory cannot hold the result. *)
Definition repeat_byte (b : Byte.byte) (size : Z) : Py bytes :=
  fun w =>
    if decide (size < min_index \/ max_index < size)
    then (Raise (OverflowError "cannot fit 'int' into an index-sized integer"), w)
    else if decide (w_memory w < size)
    then (Raise (MemoryError EmptyString), w)
    else (Ok (replicate (Z.to_nat size) b), w).

(** The sizes for which [repeat_byte] returns in [w]. *)
Definition allocatable (w : World) (size : Z) : Prop :=
  min_index <= size <= max_index /\ size <= w_memory w.

(** ** The hashlib interface *)

(** What [hashlib] knows of an algorithm: the length of its digest, or that
    it is an extendable-output function, whose [digest] takes the length. *)
Inductive digest_kind : Type :=
  | Fixed (digest_size : nat)
  | Xof.

Class Hashlib : Type := {
  (** [None]: [hashlib.new] does not know the name *)
  hl_kind : string -> option digest_kind;
  (** the digest of a fixed-length algorithm *)
  hl_fixed : string -> bytes -> bytes;
  (** the output of an extendable-output function, cut at a length *)
  hl_xof : string -> bytes -> nat -> bytes
}.

(** The list [algorithms] of the main block: the supported identifiers. *)
Definition algorithms : list string :=
  [ "sha3_512"; "blake2s"; "md5"; "sha384"; "shake_256"; "sha3_384";
    "blake2b"; "sha1"; "sm3"; "ripemd160"; "sha3_224"; "shake_128"; "mdc2";
    "sha512"; "whirlpool"; "md4"; "md5-sha1"; "sha512_256"; "sha512_224";
    "sha224"; "sha3_256"; "sha256" ].

(** The contract of the library: digests have the advertised length, and
    of the identifiers of [algorithms] that it knows, the extendable-output
    functions are exactly the two SHAKE functions.  (The library has other
    names for them, [SHAKE128] among them, which the program never uses.) *)
Class HashlibLaws (H : Hashlib) : Prop := {
  hl_fixed_length : forall a n d,
    hl_kind a = Some (Fixed n) -> length (hl_fixed a d) = n;
  hl_xof_length : forall a d n,
    hl_kind a = Some Xof -> length (hl_xof a d n) = n;
  hl_xof_shake : forall a,
    a ∈ algorithms -> is_Some (hl_kind a) ->
    (hl_kind a = Some Xof <-> a = "shake_128" \/ a = "shake_256")
}.

(** A hash object: the algorithm it was made for and the data fed so far. *)
Record hasher : Type := mkHasher {
  h_name : string;
  h_data : bytes
}.

(** Two lowercase hexadecimal digits per byte, as [bytes.hex()]. *)
Definition hex_digit (n : N) : Ascii.ascii :=
  Ascii.ascii_of_N (if (n <? 10)%N then 48 + n else 87 + n)%N.

Fixpoint hexlify (data : bytes) : string :=
  match data with
  | [] => ""
  | b :: rest =>
      let n := Byte.to_N b in
      String (hex_digit (n / 16)) (String (hex_digit (n mod 16)) (hexlify rest))
  end.

Section Program.
Context {H : Hashlib}.

(** [hashlib.new(algorithm)]. *)
Definition hashlib_new (algorithm : string) : Py hasher :=
  match hl_kind algorithm with
  | Some _ => py_ret (mkHasher algorithm [])
  | None => raise (ValueError ("unsupported hash type " +:+ algorithm))
  end.

(** [hasher.update(data)]; the object is local to its caller, so the updated
    object is returned. *)
Definition update (h : hasher) (data : bytes) : Py hasher :=
  fun w => (Ok (mkHasher (h_name h) (h_data h ++ data)),
            put_fed (h_name h) data w).

(** [hasher.digest()] for [None] and [hasher.digest(length)] for [Some length];
    [method] is the name the error message carries. *)
Definition output (method : string) (h : hasher) (len : option nat) : Py bytes :=
  match hl_kind (h_name h), len with
  | Some (Fixed _), None => py_ret (hl_fixed (h_name h) (h_data h))
  | Some (Fixed _), Some _ =>
      raise (TypeError (method +:+ "() takes no arguments (1 given)"))
  | Some Xof, None =>
      raise (TypeError (method +:+ "() missing required argument 'length' (pos 1)"))
  | Some Xof, Some n => py_ret (hl_xof (h_name h) (h_data h) n)
  | None, _ => raise (ValueError ("unsupported hash type " +:+ h_name h))
  end.

Definition digest (h : hasher) (len : option nat) : Py bytes :=
  output "digest" h len.

(** [hasher.hexdigest()]. *)
Definition hexdigest (h : hasher) : Py string :=
  d <- output "hexdigest" h None ;; py_ret (hexlify d).

(** ** main.py *)

(** Lines 27-41 of [hash_with_algorithm]: [length = None] and the chain of
    [if algorithm in {...}: length = ...] / [elif]. *)
Definition required_length (algorithm : string) : option nat :=
  if bool_decide (algorithm ∈ ({[ "sha512_224"; "sha224" ]} : gset string))
  then Some 28%nat
  else if bool_decide (algorithm ∈ ({[ "blake2s" ]} : gset string))
  then Some 32%nat
  else if bool_decide (algorithm ∈
    ({[ "sha256"; "sha3_256"; "md5"; "md4"; "ripemd160"; "sm3"; "mdc2" ]} : gset string))
  then Some 64%nat
  else if bool_decide (algorithm ∈ ({[ "sha384"; "sha3_384" ]} : gset string))
  then Some 96%nat
  else if bool_decide (algorithm ∈
    ({[ "blake2b"; "sha512"; "sha3_512"; "md5-sha1"; "sha512_256"; "whirlpool" ]} : gset string))
  then Some 128%nat
  else if bool_decide (algorithm ∈ ({[ "shake_128"; "sha3_224" ]} : gset string))
  then Some 56%nat
  else if bool_decide (algorithm ∈ ({[ "shake_256" ]} : gset string))
  then Some 64%nat
  else None.

(** The identifiers [hash_with_algorithm] returns a digest for: those the
    library knows, with a length in the chain when the library wants one. *)
Definition can_hash (algorithm : string) : Prop :=
  match hl_kind algorithm with
  | Some (Fixed _) => True
  | Some Xof => is_Some (required_length algorithm)
  | None => False
  end.

Definition hash_with_algorithm (data : bytes) (algorithm : string)
    : Py (bytes * Z) :=
  start_time <- default_timer ;;
  hasher <- hashlib_new algorithm ;;
  hasher <- update hasher data ;;
  hashed_output <-
    try_except (digest hasher None) is_TypeError (fun _ =>
      match required_length algorithm with
      | None => raise (ValueError ("Unknown length for algorithm: " +:+ algorithm))
      | Some length => digest hasher (Some length)
      end) ;;
  now <- default_timer ;;
  py_ret (hashed_output, now - start_time).

Definition download_file (url filename : string) : Py bool :=
  try_except
    (response <- urlopen url ;;
     out_file <- open_wb filename ;;
     content <- response_read response ;;
     write out_file content ;;;
     py_ret true)
    any_Exception
    (fun e => print ("Error downloading file: " +:+ exn_msg e) ;;; py_ret false).

Definition hash_file (filepath algorithm : string) : Py (option string) :=
  try_except
    (data <- read_binary filepath ;;
     hasher <- hashlib_new algorithm ;;
     hasher <- update hasher data ;;
     hex <- hexdigest hasher ;;
     py_ret (Some hex))
    any_Exception
    (fun e => print ("Error hashing file: " +:+ exn_msg e) ;;; py_ret None).

(** The byte of [b'a']. *)
Definition filler : Byte.byte := Byte.x61.

(** The loop of [generate_hash_speed_test], [results] being the list built
    so far. *)
Fixpoint speed_loop (message_sizes : list Z) (algorithm : string)
    (results : list (Z * Z)) : Py (list (Z * Z)) :=
  match message_sizes with
  | [] => py_ret results
  | size :: rest =>
      message <- repeat_byte filler size ;;
      result <- hash_with_algorithm message algorithm ;;
      let '(_, elapsed_time) := result in
      speed_loop rest algorithm (results ++ [(size, elapsed_time)])
  end.

Definition generate_hash_speed_test (message_sizes : list Z)
    (algorithm : string) : Py (list (Z * Z)) :=
  speed_loop message_sizes algorithm [].

End Program.

(** The library provides every supported identifier. *)
Definition provides_all (H : Hashlib) : Prop :=
  forall a, a ∈ algorithms -> is_Some (hl_kind a).

(** The time a call of [hash_with_algorithm] started in [w] measures, and the
    world it leaves when it returns. *)
Definition elapsed_in (w : World) : Z :=
  w_timer w (S (w_reads w)) - w_timer w (w_reads w).

Definition after_hash (algorithm : string) (data : bytes) (w : World) : World :=
  tick (put_fed algorithm data (tick w)).

(** The lines the two handlers print. *)
Definition hexdigest_needs_length : string :=
  "Error hashing file: hexdigest() missing required argument 'length' (pos 1)".

Definition download_error (reason : string) : string :=
  "Error downloading file: " +:+ reason.

(** ** Two libraries to run the program with *)

(** The digest sizes of CPython's hashlib for the supported identifiers. *)
Definition ref_sizes : gmap string digest_kind :=
  list_to_map
    [ ("sha3_512", Fixed 64); ("blake2s", Fixed 32); ("md5", Fixed 16);
      ("sha384", Fixed 48); ("shake_256", Xof); ("sha3_384", Fixed 48);
      ("blake2b", Fixed 64); ("sha1", Fixed 20); ("sm3", Fixed 32);
      ("ripemd160", Fixed 20); ("sha3_224", Fixed 28); ("shake_128", Xof);
      ("mdc2", Fixed 16); ("sha512", Fixed 64); ("whirlpool", Fixed 64);
      ("md4", Fixed 16); ("md5-sha1", Fixed 36); ("sha512_256", Fixed 32);
      ("sha512_224", Fixed 28); ("sha224", Fixed 28); ("sha3_256", Fixed 32);
      ("sha256", Fixed 32) ].

(** A stand-in for the digest functions: the data cut, or padded with zero
    bytes, to the length asked for.  It has the lengths of the real
    functions and nothing else of them. *)
Definition pad_to (n : nat) (data : bytes) : bytes :=
  take n (data ++ replicate n Byte.x00).

Definition ref_fixed (sizes : gmap string digest_kind) (a : string)
    (data : bytes) : bytes :=
  match sizes !! a with
  | Some (Fixed n) => pad_to n data
  | _ => []
  end.

(** The supported identifiers, with their sizes. *)
Definition ref_hashlib : Hashlib :=
  {| hl_kind := fun a => ref_sizes !! a;
     hl_fixed := ref_fixed ref_sizes;
     hl_xof := fun _ data n => pad_to n data |}.

(** The same with one more extendable-output function, which the chain of
    [hash_with_algorithm] does not list. *)
Definition wide_sizes : gmap string digest_kind :=
  <["kmac_128" := Xof]> ref_sizes.

Definition wide_hashlib : Hashlib :=
  {| hl_kind := fun a => wide_sizes !! a;
     hl_fixed := ref_fixed wide_sizes;
     hl_xof := fun _ data n => pad_to n data |}.

(** A world with two files, one reachable url and a clock whose [i]-th
    reading is [i * i]. *)
Definition demo_world : World :=
  {| w_timer := fun i => Z.of_nat i * Z.of_nat i;
     w_reads := 0;
     w_files := {[ "abc.bin" := Regular [Byte.x61; Byte.x62; Byte.x63];
                   "locked.bin" := Denied ]};
     w_free := 4;
     w_net := {[ "http://example.org/abc" := Body [Byte.x61; Byte.x62; Byte.x63];
                 "http://example.org/big" := Body (replicate 5 Byte.x00);
                 "http://example.org/cut" := Broken "Connection reset by peer" ]};
     w_stdout := [];
     w_fed := [];
     w_memory := 20000000 |}.

(** ** The rest of main.py *)

(** The value of a hexadecimal digit, the inverse of [hex_digit]. *)
Definition hex_value (c : Ascii.ascii) : N :=
  let k := Ascii.N_of_ascii c in
  (if k <? 58 then k - 48 else k - 87)%N.

(** The calls [plot_hash_speed] makes on [matplotlib.pyplot], which draws
    them on its current figure. *)
Inductive plt_call : Type :=
  | PlotLine (xs ys : list Z)
  | XLabel (text : string)
  | YLabel (text : string)
  | Title (text : string)
  | Show.

(** [zip] applied to the unpacked [results], a list of pairs: nothing for
    the empty list, else the first components and the second components. *)
Definition zip_star (results : list (Z * Z)) : list (list Z) :=
  match results with
  | [] => []
  | _ => [results.*1; results.*2]
  end.

(** [plot_hash_speed], over the calls made on the figure so far; the first
    line unpacks the zip into [sizes, times]. *)
Definition plot_hash_speed (results : list (Z * Z)) (figure : list plt_call)
    : outcome unit * list plt_call :=
  match zip_star results with
  | [sizes; times] =>
      (Ok tt,
       figure ++ [ PlotLine sizes times; XLabel "Message Size (bytes)";
                   YLabel "Time (seconds)";
                   Title "Hashing Speed vs Message Size"; Show ])
  | _ =>
      (Raise (ValueError "not enough values to unpack (expected 2, got 0)"),
       figure)
  end.

(** The literals of the main block. *)
Definition iso_path : string :=
  "C:/Users/lepsz/Downloads/ubuntu-20.04.3-desktop-amd64.iso".

Definition expected_hash : string := "7b9e8a8e1986f4b0b28f0c5ab84b2728".

(** The sixteen bytes [expected_hash] spells. *)
Definition expected_digest : bytes :=
  [ Byte.x7b; Byte.x9e; Byte.x8a; Byte.x8e; Byte.x19; Byte.x86; Byte.xf4;
    Byte.xb0; Byte.xb2; Byte.x8f; Byte.x0c; Byte.x5a; Byte.xb8; Byte.x4b;
    Byte.x27; Byte.x28 ].

(** A line that starts with a newline character, as ["\nTask 2"]. *)
Definition after_newline (text : string) : string :=
  String (Ascii.ascii_of_nat 10) text.

(** [if computed_hash:], for [None] or a string. *)
Definition truthy (value : option string) : bool :=
  match value with
  | None => false
  | Some EmptyString => false
  | Some (String _ _) => true
  end.

Section MainBlock.
Context {H : Hashlib}.

(** Python's own formatting inside the f-string of Task 1: the [repr] of a
    bytes object and the [str] of a float. *)
Variable repr_bytes : bytes -> string.
Variable str_float : Z -> string.

Definition task1_line (algorithm : string) (hashed_output : bytes)
    (elapsed_time : Z) : string :=
  algorithm +:+ ": " +:+ repr_bytes hashed_output +:+ " (Time: " +:+
  str_float elapsed_time +:+ " seconds)".

(** Task 1, lines 130-132: [for algorithm in algorithms:] hash [data] and
    print the line. *)
Fixpoint task1_loop (algorithms : list string) (data : bytes) : Py unit :=
  match algorithms with
  | [] => py_ret tt
  | algorithm :: rest =>
      result <- hash_with_algorithm data algorithm ;;
      let '(hashed_output, elapsed_time) := result in
      print (task1_line algorithm hashed_output elapsed_time) ;;;
      task1_loop rest data
  end.

(** Task 2, lines 135-145. *)
Definition task2 : Py unit :=
  print (after_newline "Task 2") ;;;
  computed_hash <- hash_file iso_path "md5" ;;
  if truthy computed_hash then
    if decide (computed_hash = Some expected_hash)
    then print "Hash verification successful."
    else print "Hash verification failed."
  else print "Failed to hash the file.".

(** Task 3, lines 148-154. *)
Definition task3 : Py unit :=
  print (after_newline "Task 3") ;;;
  computed_hash <- hash_file iso_path "md5" ;;
  if truthy computed_hash then
    print ("MD5 hash of the file: " +:+ default "" computed_hash)
  else print "Failed to hash the file.".

(** The digest [hash_with_algorithm] returns when it returns one. *)
Definition digest_of (algorithm : string) (data : bytes) : bytes :=
  match hl_kind algorithm with
  | Some (Fixed _) => hl_fixed algorithm data
  | _ =>
      match required_length algorithm with
      | Some length => hl_xof algorithm data length
      | None => []
      end
  end.

(** The line Task 1 prints for the [k]-th identifier of its list, when the
    loop starts in [w]: the elapsed time is the difference of the readings
    number [2 k] and [2 k + 1] of the clock from there. *)
Definition task1_line_in (w : World) (data : bytes) (k : nat)
    (algorithm : string) : string :=
  task1_line algorithm (digest_of algorithm data)
    (w_timer w (S (w_reads w + 2 * k)) - w_timer w (w_reads w + 2 * k)%nat).

End MainBlock.

(** The reference library without [mdc2], as an OpenSSL build without the
    legacy algorithms has it. *)
Definition lean_sizes : gmap string digest_kind := delete "mdc2" ref_sizes.

Definition lean_hashlib : Hashlib :=
  {| hl_kind := fun a => lean_sizes !! a;
     hl_fixed := ref_fixed lean_sizes;
     hl_xof := fun _ data n => pad_to n data |}.

(** * Properties *)

Example hexlify_abc : hexlify [Byte.x61; Byte.x62; Byte.xff] = "6162ff".
Proof. reflexivity. Qed.

(** ** The length chain *)

Lemma required_length_shake_128 : required_length "shake_128" = Some 56%nat.
Proof. reflexivity. Qed.

Lemma required_length_shake_256 : required_length "shake_256" = Some 64%nat.
Proof. reflexivity. Qed.

Lemma required_length_shake a :
  a = "shake_128" \/ a = "shake_256" -> is_Some (required_length a).
Proof. intros [-> | ->]; eexists; reflexivity. Qed.

(** Of the supported identifiers, the chain leaves out [sha1] alone. *)
Lemma algorithms_without_length a :
  a ∈ algorithms -> required_length a = None -> a = "sha1".
Proof.
  unfold algorithms. intros Hin.
  repeat (apply elem_of_cons in Hin as [-> | Hin]);
    first [ by inversion Hin | reflexivity | vm_compute; discriminate ].
Qed.

(** C1, as the code has it: the chain gives [shake_128] 56 bytes, and it
    lists [sha256] too, with 64 bytes; of the supported identifiers only
    [sha1] has no length. *)
Theorem required_length_table :
  required_length "shake_128" = Some 56%nat /\
  required_length "sha256" = Some 64%nat /\
  required_length "sha1" = None /\
  (forall a, a ∈ algorithms -> a = "sha1" \/ is_Some (required_length a)).
Proof.
  repeat split; try reflexivity.
  intros a Hin. destruct (required_length a) eqn:E; [right; eauto | left].
  by apply algorithms_without_length.
Qed.

(** C1 as stated fails: [sha256] is in the chain, so its length is not
    "none". *)
Lemma required_length_sha256_listed :
  required_length "sha256" = Some 64%nat /\ required_length "sha256" <> None.
Proof. split; [reflexivity | discriminate]. Qed.

(** ** The digest engine *)

(** Unfolds the plumbing of a computation down to the calls of the library
    and of the world; [run_py] also rewrites with the facts at hand. *)
Ltac run_step :=
  progress (unfold py_bind, try_except, py_ret, raise, any_Exception,
            hashlib_new, update, hexdigest, digest, output, default_timer,
            print, read_binary, open_wb, write, urlopen, response_read;
            simpl).

Tactic Notation "run_py" "with" constr(E) :=
  repeat first [ run_step | rewrite E ].

Tactic Notation "run_py" "with" constr(E1) "," constr(E2) :=
  repeat first [ run_step | rewrite E1 | rewrite E2 ].

Section Engine.
Context {H : Hashlib}.

(** The four ways a call of [hash_with_algorithm] ends, by what the library
    says of the algorithm. *)
Lemma hash_fixed a n d w :
  hl_kind a = Some (Fixed n) ->
  hash_with_algorithm d a w = (Ok (hl_fixed a d, elapsed_in w), after_hash a d w).
Proof.
  intros Hk.
  unfold hash_with_algorithm. by run_py with Hk.
Qed.

Lemma hash_xof a n d w :
  hl_kind a = Some Xof -> required_length a = Some n ->
  hash_with_algorithm d a w = (Ok (hl_xof a d n, elapsed_in w), after_hash a d w).
Proof.
  intros Hk Hn.
  unfold hash_with_algorithm. by run_py with Hk, Hn.
Qed.

Lemma hash_unknown_length a d w :
  hl_kind a = Some Xof -> required_length a = None ->
  hash_with_algorithm d a w =
    (Raise (ValueError ("Unknown length for algorithm: " +:+ a)),
     put_fed a d (tick w)).
Proof.
  intros Hk Hn.
  unfold hash_with_algorithm. by run_py with Hk, Hn.
Qed.

Lemma hash_unsupported a d w :
  hl_kind a = None ->
  hash_with_algorithm d a w =
    (Raise (ValueError ("unsupported hash type " +:+ a)), tick w).
Proof.
  intros Hk.
  unfold hash_with_algorithm. by run_py with Hk.
Qed.

(** C5: when the library wants a length for [a] and the chain has none, the
    call raises the [ValueError] that names [a], whatever the data. *)
Theorem hash_unknown_length_raises a d w :
  hl_kind a = Some Xof -> required_length a = None ->
  exists w',
    hash_with_algorithm d a w =
      (Raise (ValueError ("Unknown length for algorithm: " +:+ a)), w').
Proof. intros Hk Hn. eexists. by apply hash_unknown_length. Qed.

(** An identifier that can be hashed is hashed, and the digest is
    [digest_of], whatever the world. *)
Lemma hash_returns a d w :
  can_hash a ->
  hash_with_algorithm d a w = (Ok (digest_of a d, elapsed_in w), after_hash a d w).
Proof.
  unfold can_hash, digest_of. intros Hc.
  destruct (hl_kind a) as [[n|]|] eqn:Hk; [by apply (hash_fixed _ n) | | done].
  destruct Hc as [n Hn]. rewrite Hn. by apply hash_xof.
Qed.

(** An identifier that cannot be hashed raises, the same exception in every
    world. *)
Lemma hash_raises a d w :
  ~ can_hash a ->
  exists e w', hash_with_algorithm d a w = (Raise e, w') /\
    e = match hl_kind a with
        | None => ValueError ("unsupported hash type " +:+ a)
        | Some _ => ValueError ("Unknown length for algorithm: " +:+ a)
        end.
Proof.
  unfold can_hash. intros Hc.
  destruct (hl_kind a) as [[n|]|] eqn:Hk; [done | |].
  - destruct (required_length a) as [n|] eqn:Hn; [exfalso; apply Hc; by eexists|].
    eexists _, _. split; [by apply hash_unknown_length | done].
  - eexists _, _. split; [by apply hash_unsupported | done].
Qed.

Lemma can_hash_dec a : can_hash a \/ ~ can_hash a.
Proof.
  unfold can_hash. destruct (hl_kind a) as [[n|]|]; [by left | | right; tauto].
  destruct (required_length a); [left; by eexists | right; by intros [? ?]].
Qed.

(** C8, as the code has it: for every library, identifier and data, two
    calls one after the other return the same digest, or raise the same
    exception; each call measures its own time. *)
Theorem hash_twice_same_digest a d w :
  let first := hash_with_algorithm d a w in
  let second := hash_with_algorithm d a first.2 in
  match first.1, second.1 with
  | Ok (digest1, _), Ok (digest2, _) => digest1 = digest2
  | Raise e1, Raise e2 => e1 = e2
  | _, _ => False
  end.
Proof.
  intros first second. unfold second, first.
  destruct (can_hash_dec a) as [Hc | Hc].
  - by rewrite !(hash_returns _ _ _ Hc).
  - destruct (hash_raises a d w Hc) as (e1 & w1 & -> & ->). simpl.
    by destruct (hash_raises a d w1 Hc) as (e2 & w2 & -> & ->).
Qed.

(** Where [repeat_byte] returns. *)
Lemma repeat_byte_allocatable b size w :
  allocatable w size ->
  repeat_byte b size w = (Ok (replicate (Z.to_nat size) b), w).
Proof.
  unfold allocatable, repeat_byte. intros [Hindex Hmem].
  rewrite decide_False by lia. by rewrite decide_False by lia.
Qed.

(** The loop of the speed test, from any list of results and any world. *)
Lemma speed_loop_spec a sizes :
  can_hash a ->
  forall results w,
    monotone_timer w ->
    Forall (allocatable w) sizes ->
    exists times w',
      speed_loop sizes a results w = (Ok (results ++ zip sizes times), w') /\
      length times = length sizes /\
      Forall (fun t => 0 <= t) times /\
      w_fed w' =
        w_fed w ++ ((fun size => (a, replicate (Z.to_nat size) filler)) <$> sizes) /\
      w_timer w' = w_timer w.
Proof.
  intros Hc. induction sizes as [|size rest IH]; intros results w Hmono Hsizes.
  - exists [], w. simpl. unfold py_ret. by rewrite !app_nil_r.
  - apply Forall_cons in Hsizes as [Hsize Hrest].
    destruct (IH (results ++ [(size, elapsed_in w)])
                (after_hash a (replicate (Z.to_nat size) filler) w))
      as (times & w' & Hloop & Hlen & Hpos & Hfed & Htimer); [done | done |].
    exists (elapsed_in w :: times), w'. repeat split.
    + simpl. unfold py_bind. rewrite (repeat_byte_allocatable _ _ _ Hsize).
      rewrite (hash_returns _ _ _ Hc), Hloop.
      by rewrite <- app_assoc.
    + simpl. by rewrite Hlen.
    + constructor; [|done].
      unfold elapsed_in. specialize (Hmono (w_reads w) (S (w_reads w))). lia.
    + rewrite Hfed. simpl. by rewrite <- app_assoc.
    + by rewrite Htimer.
Qed.

Context {L : HashlibLaws H}.

(** A supported identifier that the library knows can be hashed: [sha1], the
    one without a length in the chain, has a fixed length in the library. *)
Lemma supported_can_hash a :
  a ∈ algorithms -> is_Some (hl_kind a) -> can_hash a.
Proof.
  intros Hin Hs. pose proof (hl_xof_shake a Hin Hs) as Hx. unfold can_hash.
  destruct (hl_kind a) as [[n|]|] eqn:Hk; [done | | by destruct Hs].
  apply required_length_shake. by apply Hx.
Qed.

(** The length of the digest. *)
Lemma digest_of_length a d :
  can_hash a ->
  match hl_kind a with
  | Some Xof => required_length a = Some (length (digest_of a d))
  | Some (Fixed n) => length (digest_of a d) = n
  | None => False
  end.
Proof.
  unfold can_hash, digest_of. intros Hc.
  destruct (hl_kind a) as [[n|]|] eqn:Hk; [by apply hl_fixed_length | | done].
  destruct Hc as [n Hn]. rewrite Hn. f_equal. symmetry. by apply hl_xof_length.
Qed.

End Engine.

(** ** The supported identifiers *)

Section Supported.
Context {H : Hashlib} {L : HashlibLaws H}.

(** C7, as the code has it: for a supported identifier that the library
    knows, the empty byte string is hashed, and so is every other input;
    and no supported identifier, known to the library or not, reaches the
    [ValueError] of the length chain. *)
Theorem hash_supported_succeeds a w :
  a ∈ algorithms ->
  (is_Some (hl_kind a) ->
   (exists digest elapsed w',
      hash_with_algorithm [] a w = (Ok (digest, elapsed), w')) /\
   (forall d, exists digest elapsed w',
      hash_with_algorithm d a w = (Ok (digest, elapsed), w'))) /\
  (forall d,
     (hash_with_algorithm d a w).1 <>
     Raise (ValueError ("Unknown length for algorithm: " +:+ a))).
Proof.
  intros Hin. split.
  - intros Hs. pose proof (supported_can_hash a Hin Hs) as Hc.
    assert (Hd : forall d, exists digest elapsed w',
       hash_with_algorithm d a w = (Ok (digest, elapsed), w'))
      by (intros d; rewrite (hash_returns _ _ _ Hc); by eexists _, _, _).
    split; [apply Hd | exact Hd].
  - intros d. destruct (hl_kind a) as [k|] eqn:Hk.
    + rewrite (hash_returns a d w); [done|].
      apply supported_can_hash; [done | by rewrite Hk].
    + rewrite (hash_unsupported _ _ _ Hk). simpl. discriminate.
Qed.

(** C3, as the code has it: for a supported identifier that the library
    knows, the digest has the length of the chain when the library wants a
    length for it, and the library's fixed length otherwise; a second call
    with the same data gives a digest of the same length. *)
Theorem hash_digest_length a d w :
  a ∈ algorithms ->
  is_Some (hl_kind a) ->
  exists digest elapsed w1,
    hash_with_algorithm d a w = (Ok (digest, elapsed), w1) /\
    match hl_kind a with
    | Some Xof => required_length a = Some (length digest)
    | Some (Fixed n) => length digest = n
    | None => False
    end /\
    exists digest' elapsed' w2,
      hash_with_algorithm d a w1 = (Ok (digest', elapsed'), w2) /\
      length digest' = length digest.
Proof.
  intros Hin Hs. pose proof (supported_can_hash a Hin Hs) as Hc.
  exists (digest_of a d), (elapsed_in w), (after_hash a d w).
  split; [by apply hash_returns|]. split; [by apply digest_of_length|].
  eexists _, _, _. split; [by apply hash_returns | done].
Qed.

(** C4, as the code has it: for a supported identifier that the library
    knows, sizes that [b'a' * size] can build, and a clock that does not run
    backwards, the speed test returns one sample per size, in the order of
    the sizes: its first component is the size, its second is at least
    zero, and the data hashed for it is the filler byte repeated [size]
    times (no byte for a size below one). *)
Theorem speed_test_samples sizes a w :
  a ∈ algorithms ->
  is_Some (hl_kind a) ->
  Forall (allocatable w) sizes ->
  monotone_timer w ->
  exists samples w',
    generate_hash_speed_test sizes a w = (Ok samples, w') /\
    length samples = length sizes /\
    samples.*1 = sizes /\
    Forall (fun sample => 0 <= sample.2) samples /\
    w_fed w' =
      w_fed w ++ ((fun size => (a, replicate (Z.to_nat size) filler)) <$> sizes).
Proof.
  intros Hin Hs Hsizes Hmono.
  destruct (speed_loop_spec a sizes (supported_can_hash a Hin Hs) [] w Hmono Hsizes)
    as (times & w' & Hloop & Hlen & Hpos & Hfed & _).
  exists (zip sizes times), w'. repeat split; [done | | | | done].
  - rewrite length_zip_with. lia.
  - apply fst_zip. lia.
  - apply Forall_forall. intros [size t] Hin'.
    apply elem_of_zip_r in Hin'. simpl.
    by eapply (proj1 (Forall_forall _ _) Hpos).
Qed.

End Supported.

(** ** The file hasher *)

Lemma hexlify_length data : String.length (hexlify data) = (2 * length data)%nat.
Proof. induction data as [|b rest IH]; simpl; [done | rewrite IH; lia]. Qed.

Section FileHasher.
Context {H : Hashlib}.

(** A readable file and a fixed-length algorithm: the digest in hexadecimal. *)
Lemma hash_file_fixed path a n content w :
  w_files w !! path = Some (Regular content) ->
  hl_kind a = Some (Fixed n) ->
  hash_file path a w =
    (Ok (Some (hexlify (hl_fixed a content))), put_fed a content w).
Proof. intros Hf Hk. unfold hash_file. by run_py with Hf, Hk. Qed.

(** A readable file and an extendable-output function: [hexdigest()] raises,
    the handler prints and returns [None]. *)
Lemma hash_file_xof path a content w :
  w_files w !! path = Some (Regular content) ->
  hl_kind a = Some Xof ->
  hash_file path a w =
    (Ok None, put_line hexdigest_needs_length (put_fed a content w)).
Proof. intros Hf Hk. unfold hash_file. by run_py with Hf, Hk. Qed.

(** C6: [hash_file] never raises.  When it returns [None] it has printed a
    line that starts with "Error hashing file: ", and it returns [None] for a
    path that does not exist, for a file it may not read and for an
    algorithm the library does not know. *)
Theorem hash_file_never_raises path a w :
  exists r w',
    hash_file path a w = (Ok r, w') /\
    (r = None ->
     exists msg, w_stdout w' = w_stdout w ++ ["Error hashing file: " +:+ msg]) /\
    (w_files w !! path = None \/ w_files w !! path = Some Denied \/
     hl_kind a = None -> r = None).
Proof.
  unfold hash_file.
  destruct (w_files w !! path) as [[content|]|] eqn:Hf;
    destruct (hl_kind a) as [[n|]|] eqn:Hk;
    run_py with Hf, Hk;
    eexists _, _; (split; [reflexivity|]); simpl;
    (split; [intros; try discriminate; eauto | intros [?|[?|?]]; congruence]).
Qed.

End FileHasher.

Section FileHasherSupported.
Context {H : Hashlib} {L : HashlibLaws H}.
Hypothesis provided : provides_all H.

Lemma shake_is_xof a :
  a = "shake_128" \/ a = "shake_256" -> hl_kind a = Some Xof.
Proof.
  intros Ha.
  assert (Hin : a ∈ algorithms)
    by (destruct Ha as [-> | ->]; apply list_elem_of_In; vm_compute; tauto).
  apply hl_xof_shake; [done | by apply provided | done].
Qed.


(** C2 fails on the code at [shake_128]: the digest engine returns a digest
    of 56 bytes for the content of a readable file, and [hash_file] returns
    [None] for the file. *)
Theorem hash_file_misses_shake_128 path content w :
  w_files w !! path = Some (Regular content) ->
  (hash_file path "shake_128" w).1 = Ok None /\
  exists digest elapsed,
    (hash_with_algorithm content "shake_128" w).1 = Ok (digest, elapsed) /\
    length digest = 56%nat.
Proof.
  intros Hf. assert (Hk : hl_kind "shake_128" = Some Xof)
    by (apply shake_is_xof; by left).
  split.
  - by rewrite (hash_file_xof _ _ _ _ Hf Hk).
  - exists (hl_xof "shake_128" content 56), (elapsed_in w).
    rewrite (hash_xof _ 56 _ _ Hk required_length_shake_128).
    split; [done | by apply hl_xof_length].
Qed.

(** X1: where the library has a fixed length for the algorithm the two
    agree: [hash_file] returns the digest of the engine in lowercase
    hexadecimal, two digits per byte. *)
Lemma hash_file_agrees_fixed path a n content w :
  w_files w !! path = Some (Regular content) ->
  hl_kind a = Some (Fixed n) ->
  exists digest elapsed,
    (hash_with_algorithm content a w).1 = Ok (digest, elapsed) /\
    (hash_file path a w).1 = Ok (Some (hexlify digest)) /\
    String.length (hexlify digest) = (2 * n)%nat.
Proof.
  intros Hf Hk. exists (hl_fixed a content), (elapsed_in w).
  rewrite (hash_fixed _ _ _ _ Hk), (hash_file_fixed _ _ _ _ _ Hf Hk).
  repeat split. rewrite hexlify_length. f_equal. by apply hl_fixed_length.
Qed.

End FileHasherSupported.

(** ** The file fetcher *)

(** The five ways a call of [download_file] ends. *)
Lemma download_unreachable url filename w :
  w_net w !! url = None ->
  download_file url filename w =
    (Ok false, put_line (download_error ("<urlopen error " +:+ url +:+ ">")) w).
Proof. intros Hn. unfold download_file. by run_py with Hn. Qed.

Lemma download_denied url filename response w :
  w_net w !! url = Some response ->
  w_files w !! filename = Some Denied ->
  download_file url filename w =
    (Ok false,
     put_line (download_error ("[Errno 13] Permission denied: '" +:+ filename +:+ "'")) w).
Proof. intros Hn Hf. unfold download_file. by run_py with Hn, Hf. Qed.

Lemma download_broken url filename reason w :
  w_net w !! url = Some (Broken reason) ->
  w_files w !! filename <> Some Denied ->
  download_file url filename w =
    (Ok false,
     put_line (download_error reason) (put_file filename (Regular []) w)).
Proof.
  intros Hn Hf. unfold download_file.
  destruct (w_files w !! filename) as [[old|]|] eqn:Hl; [| done |];
    by run_py with Hn, Hl.
Qed.

Lemma download_too_big url filename content w :
  w_net w !! url = Some (Body content) ->
  w_files w !! filename <> Some Denied ->
  ~ (length content <= w_free w)%nat ->
  download_file url filename w =
    (Ok false,
     put_line (download_error "[Errno 28] No space left on device")
       (put_file filename (Regular (take (w_free w) content))
          (put_file filename (Regular []) w))).
Proof.
  intros Hn Hf Hbig. unfold download_file.
  destruct (w_files w !! filename) as [[old|]|] eqn:Hl; [| done |];
    run_py with Hn, Hl; by rewrite decide_False.
Qed.

Lemma download_done url filename content w :
  w_net w !! url = Some (Body content) ->
  w_files w !! filename <> Some Denied ->
  (length content <= w_free w)%nat ->
  download_file url filename w =
    (Ok true,
     put_file filename (Regular content) (put_file filename (Regular []) w)).
Proof.
  intros Hn Hf Hfit. unfold download_file.
  destruct (w_files w !! filename) as [[old|]|] eqn:Hl; [| done |];
    run_py with Hn, Hl; by rewrite decide_True.
Qed.


(** ** The program on the reference library *)

Lemma pad_to_length n data : length (pad_to n data) = n.
Proof.
  unfold pad_to. rewrite length_take, length_app, length_replicate. lia.
Qed.

(** The reference library knows every supported identifier. *)
Lemma ref_kind_supported a :
  a ∈ algorithms -> is_Some (ref_sizes !! a).
Proof.
  unfold algorithms. intros Hin.
  repeat (apply elem_of_cons in Hin as [-> | Hin]);
    first [ by inversion Hin | (vm_compute; eexists; reflexivity) ].
Qed.

Lemma ref_sizes_keys a : is_Some (ref_sizes !! a) -> a ∈ algorithms.
Proof.
  intros Hs. destruct (decide (a ∈ algorithms)) as [|Hout]; [done|].
  unfold ref_sizes in Hs. rewrite not_elem_of_list_to_map_1 in Hs.
  - by destruct Hs.
  - exact Hout.
Qed.

Lemma ref_provides : provides_all ref_hashlib.
Proof. intros a Hin. by apply ref_kind_supported. Qed.

(** Its extendable-output functions are the two SHAKE functions. *)
Lemma ref_xof_shake a :
  a ∈ algorithms ->
  (ref_sizes !! a = Some Xof <-> a = "shake_128" \/ a = "shake_256").
Proof.
  unfold algorithms. intros Hin.
  repeat (apply elem_of_cons in Hin as [-> | Hin]);
    first [ by inversion Hin
          | split; [intros _; auto | intros _; vm_compute; reflexivity]
          | split; [vm_compute; discriminate | intros [?|?]; discriminate] ].
Qed.

(** The reference library keeps the contract. *)
Lemma ref_laws : HashlibLaws ref_hashlib.
Proof.
  split; cbn [hl_kind hl_fixed hl_xof ref_hashlib].
  - intros a n d Hk. unfold ref_fixed. rewrite Hk. apply pad_to_length.
  - intros a d n _. apply pad_to_length.
  - intros a Hin _. by apply ref_xof_shake.
Qed.

Lemma demo_world_monotone : monotone_timer demo_world.
Proof. intros i j Hij. cbn [w_timer demo_world]. nia. Qed.

Lemma supported_sha256 : "sha256" ∈ algorithms.
Proof. apply list_elem_of_In. vm_compute. tauto. Qed.

Lemma supported_shake_128 : "shake_128" ∈ algorithms.
Proof. apply list_elem_of_In. vm_compute. tauto. Qed.

Lemma ref_sha256_fixed : hl_kind (Hashlib := ref_hashlib) "sha256" = Some (Fixed 32).
Proof. vm_compute. reflexivity. Qed.

Lemma demo_abc :
  w_files demo_world !! "abc.bin" = Some (Regular [Byte.x61; Byte.x62; Byte.x63]).
Proof. vm_compute. reflexivity. Qed.

(** [hash_digest_length] on the reference library, for [shake_128]. *)
Lemma hash_digest_length_witness :
  exists digest elapsed w1,
    hash_with_algorithm (H := ref_hashlib) [Byte.x61] "shake_128" demo_world =
      (Ok (digest, elapsed), w1) /\
    match hl_kind (Hashlib := ref_hashlib) "shake_128" with
    | Some Xof => required_length "shake_128" = Some (length digest)
    | Some (Fixed n) => length digest = n
    | None => False
    end /\
    exists digest' elapsed' w2,
      hash_with_algorithm (H := ref_hashlib) [Byte.x61] "shake_128" w1 =
        (Ok (digest', elapsed'), w2) /\
      length digest' = length digest.
Proof.
  apply (hash_digest_length (L := ref_laws) "shake_128" [Byte.x61] demo_world
           supported_shake_128).
  vm_compute. by eexists.
Defined.

(** [speed_test_samples] on the reference library: the sizes 1000 and 10000
    with [sha256] give two samples. *)
Lemma speed_test_samples_witness :
  exists samples w',
    generate_hash_speed_test (H := ref_hashlib) [1000; 10000] "sha256" demo_world =
      (Ok samples, w') /\
    length samples = 2%nat /\
    samples.*1 = [1000; 10000] /\
    Forall (fun sample => 0 <= sample.2) samples /\
    w_fed w' =
      w_fed demo_world ++
      ((fun size => ("sha256", replicate (Z.to_nat size) filler)) <$> [1000; 10000]).
Proof.
  apply (speed_test_samples (L := ref_laws) [1000; 10000] "sha256" demo_world
           supported_sha256).
  - vm_compute. by eexists.
  - repeat constructor; vm_compute; congruence.
  - exact demo_world_monotone.
Defined.

(** [hash_unknown_length_raises] on the wider library, for the
    extendable-output function the chain does not list. *)
Lemma hash_unknown_length_raises_witness :
  exists w',
    hash_with_algorithm (H := wide_hashlib) [Byte.x61] "kmac_128" demo_world =
      (Raise (ValueError ("Unknown length for algorithm: " +:+ "kmac_128")), w').
Proof.
  apply (hash_unknown_length_raises (H := wide_hashlib) "kmac_128" [Byte.x61] demo_world).
  - vm_compute. reflexivity.
  - vm_compute. reflexivity.
Defined.

(** [hash_supported_succeeds] on the reference library, for [sha1], the
    supported identifier without a length in the chain. *)
Lemma hash_supported_succeeds_witness :
  (exists digest elapsed w',
     hash_with_algorithm (H := ref_hashlib) [] "sha1" demo_world =
       (Ok (digest, elapsed), w')) /\
  (forall d,
     (hash_with_algorithm (H := ref_hashlib) d "sha1" demo_world).1 <>
     Raise (ValueError ("Unknown length for algorithm: " +:+ "sha1"))).
Proof.
  destruct (hash_supported_succeeds (L := ref_laws) "sha1" demo_world)
    as [Hknown Hnever].
  - apply list_elem_of_In. vm_compute. tauto.
  - split; [|exact Hnever]. apply Hknown. vm_compute. by eexists.
Defined.

(** C8 as stated fails: [hash_with_algorithm] returns the pair of the digest
    and the elapsed time, and with a clock whose [i]-th reading is [i * i]
    two calls on the empty input with [sha256] return the same digest with
    the times 1 and 5, so the two results differ. *)
Lemma hash_twice_differs :
  exists r1 w1 r2 w2,
    hash_with_algorithm (H := ref_hashlib) [] "sha256" demo_world = (Ok r1, w1) /\
    hash_with_algorithm (H := ref_hashlib) [] "sha256" w1 = (Ok r2, w2) /\
    r1.1 = r2.1 /\ r1.2 = 1 /\ r2.2 = 5 /\ r1 <> r2.
Proof.
  eexists _, _, _, _. split; [apply (hash_fixed _ _ _ _ ref_sha256_fixed)|].
  split; [apply (hash_fixed _ _ _ _ ref_sha256_fixed)|].
  repeat split. intros Heq. apply (f_equal snd) in Heq. discriminate Heq.
Qed.


(** [hash_file_misses_shake_128] on the reference library. *)
Lemma hash_file_misses_shake_128_witness :
  (hash_file (H := ref_hashlib) "abc.bin" "shake_128" demo_world).1 = Ok None /\
  exists digest elapsed,
    (hash_with_algorithm (H := ref_hashlib) [Byte.x61; Byte.x62; Byte.x63]
       "shake_128" demo_world).1 = Ok (digest, elapsed) /\
    length digest = 56%nat.
Proof.
  apply (hash_file_misses_shake_128 (L := ref_laws) ref_provides "abc.bin"
           [Byte.x61; Byte.x62; Byte.x63] demo_world).
  vm_compute. reflexivity.
Defined.

(** [hash_file_agrees_fixed] on the reference library, for [sha256]. *)
Lemma hash_file_agrees_fixed_witness :
  exists digest elapsed,
    (hash_with_algorithm (H := ref_hashlib) [Byte.x61; Byte.x62; Byte.x63]
       "sha256" demo_world).1 = Ok (digest, elapsed) /\
    (hash_file (H := ref_hashlib) "abc.bin" "sha256" demo_world).1 =
      Ok (Some (hexlify digest)) /\
    String.length (hexlify digest) = (2 * 32)%nat.
Proof.
  apply (hash_file_agrees_fixed (L := ref_laws) "abc.bin" "sha256" 32
           [Byte.x61; Byte.x62; Byte.x63] demo_world).
  - vm_compute. reflexivity.
  - vm_compute. reflexivity.
Defined.

(** * More of main.py *)

(** ** What the digest engine touches *)

Section EngineEffects.
Context {H : Hashlib}.

(** X2: [hashlib.new] sits outside the [try] of [hash_with_algorithm], so
    for an identifier the library does not know its [ValueError] reaches the
    caller; the clock has been read once and no data has been hashed. *)
Theorem hash_unsupported_propagates a d w :
  hl_kind a = None ->
  exists w',
    hash_with_algorithm d a w =
      (Raise (ValueError ("unsupported hash type " +:+ a)), w') /\
    w_reads w' = S (w_reads w) /\ w_fed w' = w_fed w.
Proof. intros Hk. eexists. split; [by apply hash_unsupported | done]. Qed.

(** The outcomes of [hash_with_algorithm], without any assumption on the
    library. *)
Lemma hash_cases a d w :
  (exists digest,
     hash_with_algorithm d a w = (Ok (digest, elapsed_in w), after_hash a d w)) \/
  (exists e,
     hash_with_algorithm d a w = (Raise e, tick w) \/
     hash_with_algorithm d a w = (Raise e, put_fed a d (tick w))).
Proof.
  destruct (hl_kind a) as [[n|]|] eqn:Hk.
  - left. eexists. by eapply hash_fixed.
  - destruct (required_length a) as [n|] eqn:Hn.
    + left. eexists. by eapply hash_xof.
    + right. eexists. right. by apply hash_unknown_length.
  - right. eexists. left. by apply hash_unsupported.
Qed.

(** X3: whatever the algorithm and the data, [hash_with_algorithm] leaves
    the files, the network, the free space and the printed lines as they
    were.  When it returns, it has read the clock exactly twice, the elapsed
    time is the difference of these two readings, and the data has been fed
    to one hasher; when it raises, it has read the clock once. *)
Theorem hash_with_algorithm_frame a d w :
  let run := hash_with_algorithm d a w in
  w_files run.2 = w_files w /\ w_net run.2 = w_net w /\
  w_free run.2 = w_free w /\ w_stdout run.2 = w_stdout w /\
  w_timer run.2 = w_timer w /\
  match run.1 with
  | Ok (_, elapsed) =>
      w_reads run.2 = S (S (w_reads w)) /\
      elapsed = w_timer w (S (w_reads w)) - w_timer w (w_reads w) /\
      w_fed run.2 = w_fed w ++ [(a, d)]
  | Raise _ => w_reads run.2 = S (w_reads w)
  end.
Proof.
  intros run. unfold run.
  destruct (hash_cases a d w) as [[digest ->] | [e [-> | ->]]]; by repeat split.
Qed.

End EngineEffects.

(** ** What the file hasher returns and touches *)

Section FileHasherEffects.
Context {H : Hashlib}.

(** X4: [hash_file] returns a string exactly when the file can be read and
    the library has a fixed digest length for the algorithm, and the string
    is then the library's digest of the whole content in hexadecimal. *)
Theorem hash_file_some_iff path a w hex :
  (hash_file path a w).1 = Ok (Some hex) <->
  exists content n,
    w_files w !! path = Some (Regular content) /\
    hl_kind a = Some (Fixed n) /\
    hex = hexlify (hl_fixed a content).
Proof.
  split.
  - unfold hash_file.
    destruct (w_files w !! path) as [[content|]|] eqn:Hf;
      destruct (hl_kind a) as [[n|]|] eqn:Hk;
      run_py with Hf, Hk; simpl; intros [= <-]; eauto.
  - intros (content & n & Hf & Hk & ->).
    by rewrite (hash_file_fixed _ _ _ _ _ Hf Hk).
Qed.

(** X5: [hash_file] writes no file, does not read the clock and leaves the
    network alone; it prints nothing when it returns a string, and one line
    when it returns [None]. *)
Theorem hash_file_frame path a w :
  let run := hash_file path a w in
  w_files run.2 = w_files w /\ w_net run.2 = w_net w /\
  w_free run.2 = w_free w /\ w_reads run.2 = w_reads w /\
  w_timer run.2 = w_timer w /\
  match run.1 with
  | Ok (Some _) => w_stdout run.2 = w_stdout w
  | Ok None => length (w_stdout run.2) = S (length (w_stdout w))
  | Raise _ => False
  end.
Proof.
  intros run. unfold run, hash_file.
  destruct (w_files w !! path) as [[content|]|] eqn:Hf;
    destruct (hl_kind a) as [[n|]|] eqn:Hk;
    run_py with Hf, Hk; simpl; repeat split;
    rewrite length_app; simpl; lia.
Qed.

End FileHasherEffects.

(** ** What the file fetcher leaves behind *)


(** X7: [download_file] touches no file but the destination, and not even
    that one when the url cannot be reached or the destination cannot be
    opened; it reads no clock and hashes nothing. *)
Theorem download_file_frame url filename w :
  let run := download_file url filename w in
  (forall path, path <> filename ->
     w_files run.2 !! path = w_files w !! path) /\
  (w_net w !! url = None \/ w_files w !! filename = Some Denied ->
   w_files run.2 = w_files w) /\
  w_reads run.2 = w_reads w /\ w_fed run.2 = w_fed w /\ w_net run.2 = w_net w.
Proof.
  intros run. unfold run.
  destruct (w_net w !! url) as [response|] eqn:Hn.
  - assert (w_files w !! filename = Some Denied \/
            w_files w !! filename <> Some Denied) as [Hf|Hf]
      by (destruct (w_files w !! filename) as [[old|]|]; auto).
    + by rewrite (download_denied _ _ _ _ Hn Hf).
    + destruct response as [content|reason].
      * destruct (decide (length content <= w_free w)%nat) as [Hfit|Hbig].
        -- rewrite (download_done _ _ _ _ Hn Hf Hfit). simpl.
           repeat split; [|by intros [?|?]].
           intros path Hp. by rewrite !lookup_insert_ne.
        -- rewrite (download_too_big _ _ _ _ Hn Hf Hbig). simpl.
           repeat split; [|by intros [?|?]].
           intros path Hp. by rewrite !lookup_insert_ne.
      * rewrite (download_broken _ _ _ _ Hn Hf). simpl.
        repeat split; [|by intros [?|?]].
        intros path Hp. by rewrite lookup_insert_ne.
  - by rewrite (download_unreachable _ _ _ Hn).
Qed.

(** X8: a file fetched with [download_file] and then hashed with [hash_file]
    gives the digest of the body that was served, in hexadecimal. *)
Theorem download_then_hash {H : Hashlib} url filename content a n w :
  w_net w !! url = Some (Body content) ->
  w_files w !! filename <> Some Denied ->
  (length content <= w_free w)%nat ->
  hl_kind a = Some (Fixed n) ->
  exists w1 w2,
    download_file url filename w = (Ok true, w1) /\
    hash_file filename a w1 = (Ok (Some (hexlify (hl_fixed a content))), w2).
Proof.
  intros Hn Hf Hfit Hk. eexists _, _. split; [by apply download_done|].
  apply (hash_file_fixed _ _ n); [|done]. simpl. by rewrite lookup_insert_eq.
Qed.

(** ** The speed test and its plot *)

Section SpeedTest.
Context {H : Hashlib}.

(** X9: for an empty list of sizes the speed test returns the empty list and
    touches nothing, whatever the identifier.  With an identifier the
    library does not know and a first size that [b'a' * size] can build, it
    raises the library's [ValueError] at the first size, after one reading
    of the clock, and returns no sample.  With a first size that is no
    index it raises [OverflowError] before any reading of the clock,
    whatever the identifier. *)
Theorem speed_test_first_failure a w :
  generate_hash_speed_test [] a w = (Ok [], w) /\
  (forall size rest,
     hl_kind a = None -> allocatable w size ->
     generate_hash_speed_test (size :: rest) a w =
       (Raise (ValueError ("unsupported hash type " +:+ a)), tick w)) /\
  (forall size rest,
     max_index < size ->
     generate_hash_speed_test (size :: rest) a w =
       (Raise (OverflowError "cannot fit 'int' into an index-sized integer"), w)).
Proof.
  split; [done|]. split.
  - intros size rest Hk Hsize.
    unfold generate_hash_speed_test. simpl. unfold py_bind.
    rewrite (repeat_byte_allocatable _ _ _ Hsize).
    by rewrite (hash_unsupported _ _ _ Hk).
  - intros size rest Hsize.
    unfold generate_hash_speed_test. simpl. unfold py_bind, repeat_byte.
    by rewrite decide_True by lia.
Qed.

(** The loop of the speed test, with the readings of the clock spelled
    out. *)
Lemma speed_loop_exact a sizes :
  can_hash a ->
  forall results w,
    Forall (allocatable w) sizes ->
    exists w',
      speed_loop sizes a results w =
        (Ok (results ++
             imap (fun k size =>
                     (size, w_timer w (S (w_reads w + 2 * k)) -
                            w_timer w (w_reads w + 2 * k)%nat)) sizes), w') /\
      w_reads w' = (w_reads w + 2 * length sizes)%nat /\
      w_timer w' = w_timer w /\ w_stdout w' = w_stdout w /\
      w_files w' = w_files w.
Proof.
  intros Hc. induction sizes as [|size rest IH]; intros results w Hsizes.
  - exists w. simpl. unfold py_ret. rewrite app_nil_r.
    repeat split. lia.
  - apply Forall_cons in Hsizes as [Hsize Hrest].
    destruct (IH (results ++ [(size, elapsed_in w)])
                (after_hash a (replicate (Z.to_nat size) filler) w))
      as (w' & Hloop & Hreads & Htimer & Hout & Hfiles); [done|].
    cbn [after_hash tick put_fed w_timer w_reads w_stdout w_files] in *.
    exists w'. split; [|split; [|auto]].
    + simpl speed_loop. unfold py_bind.
      rewrite (repeat_byte_allocatable _ _ _ Hsize).
      rewrite (hash_returns _ _ _ Hc).
      rewrite Hloop, <- app_assoc, imap_cons. cbn [app]. do 4 f_equal.
      * unfold elapsed_in. by rewrite Nat.mul_0_r, Nat.add_0_r.
      * apply imap_ext. intros k size' _. cbn [compose].
        assert (E : (S (S (w_reads w)) + 2 * k = w_reads w + 2 * S k)%nat) by lia.
        by rewrite E.
    + rewrite Hreads. cbn [length]. lia.
Qed.

(** X10: for an identifier that can be hashed (the library knows it and,
    when it wants a length for it, the chain has one) and sizes that
    [b'a' * size] can build, the speed test reads the clock exactly twice
    per size and nothing else: the [k]-th sample pairs the [k]-th size with
    the difference of the readings number [2k] and [2k + 1] counted from
    the call, so the time between two measurements is in no sample; nothing
    is printed and no file is touched. *)
Theorem speed_test_readings sizes a w :
  can_hash a ->
  Forall (allocatable w) sizes ->
  exists w',
    generate_hash_speed_test sizes a w =
      (Ok (imap (fun k size =>
                   (size, w_timer w (S (w_reads w + 2 * k)) -
                          w_timer w (w_reads w + 2 * k)%nat)) sizes), w') /\
    w_reads w' = (w_reads w + 2 * length sizes)%nat /\
    w_stdout w' = w_stdout w /\ w_files w' = w_files w.
Proof.
  intros Hc Hsizes.
  destruct (speed_loop_exact a sizes Hc [] w Hsizes)
    as (w' & Hloop & Hreads & _ & Hout & Hfiles).
  by exists w'.
Qed.

(** The two outcomes of [plot_hash_speed]. *)
Lemma plot_hash_speed_cases results figure :
  plot_hash_speed results figure =
    match results with
    | [] =>
        (Raise (ValueError "not enough values to unpack (expected 2, got 0)"),
         figure)
    | _ :: _ =>
        (Ok tt,
         figure ++ [ PlotLine results.*1 results.*2;
                     XLabel "Message Size (bytes)"; YLabel "Time (seconds)";
                     Title "Hashing Speed vs Message Size"; Show ])
    end.
Proof. by destruct results. Qed.

(** X11: for an identifier that can be hashed and sizes that [b'a' * size]
    can build, the samples of a speed test, handed to [plot_hash_speed],
    draw one line whose x coordinates are the sizes asked for, in their
    order, with one time per size, none below zero when the clock does not
    run backwards, and then show the figure.  For an empty list of sizes
    the test succeeds and the plot raises [ValueError], with nothing
    drawn. *)
Theorem speed_test_then_plot sizes a w figure :
  can_hash a ->
  Forall (allocatable w) sizes ->
  monotone_timer w ->
  exists samples w',
    generate_hash_speed_test sizes a w = (Ok samples, w') /\
    match sizes with
    | [] =>
        plot_hash_speed samples figure =
          (Raise (ValueError "not enough values to unpack (expected 2, got 0)"),
           figure)
    | _ :: _ =>
        exists times,
          length times = length sizes /\
          Forall (fun t => 0 <= t) times /\
          plot_hash_speed samples figure =
            (Ok tt,
             figure ++ [ PlotLine sizes times;
                         XLabel "Message Size (bytes)"; YLabel "Time (seconds)";
                         Title "Hashing Speed vs Message Size"; Show ])
    end.
Proof.
  intros Hc Hsizes Hmono.
  destruct (speed_loop_spec a sizes Hc [] w Hmono Hsizes)
    as (times & w' & Hloop & Hlen & Hpos & _).
  exists (zip sizes times), w'. split; [done|].
  destruct sizes as [|size rest]; [done|].
  exists times. repeat split; [done | done |].
  rewrite plot_hash_speed_cases.
  destruct times as [|t times']; [discriminate Hlen|].
  cbn [zip zip_with]. do 4 f_equal.
  - change (size :: (zip rest times').*1 = size :: rest). f_equal.
    apply fst_zip. simpl in Hlen. lia.
  - change (t :: (zip rest times').*2 = t :: times'). f_equal.
    apply snd_zip. simpl in Hlen. lia.
Qed.

End SpeedTest.

(** ** Hexadecimal strings *)

Lemma hex_value_digit n : (n < 16)%N -> hex_value (hex_digit n) = n.
Proof.
  intros Hn. unfold hex_value, hex_digit.
  destruct (n <? 10)%N eqn:Hlow.
  - apply N.ltb_lt in Hlow. rewrite Ascii.N_ascii_embedding by lia.
    destruct (48 + n <? 58)%N eqn:E; [lia|]. apply N.ltb_ge in E. lia.
  - apply N.ltb_ge in Hlow. rewrite Ascii.N_ascii_embedding by lia.
    destruct (87 + n <? 58)%N eqn:E; [|lia]. apply N.ltb_lt in E. lia.
Qed.

Lemma byte_of_hex_digits b1 b2 :
  hex_digit (Byte.to_N b1 / 16) = hex_digit (Byte.to_N b2 / 16) ->
  hex_digit (Byte.to_N b1 mod 16) = hex_digit (Byte.to_N b2 mod 16) ->
  b1 = b2.
Proof.
  intros Hhigh Hlow.
  pose proof (Byte.to_N_bounded b1) as B1.
  pose proof (Byte.to_N_bounded b2) as B2.
  apply (f_equal hex_value) in Hhigh, Hlow.
  rewrite !hex_value_digit in Hhigh, Hlow;
    try (apply N.Div0.div_lt_upper_bound; lia);
    try (apply N.mod_upper_bound; lia).
  assert (E : Byte.to_N b1 = Byte.to_N b2).
  { rewrite (N.div_mod (Byte.to_N b1) 16), (N.div_mod (Byte.to_N b2) 16) by lia.
    by rewrite Hhigh, Hlow. }
  pose proof (Byte.of_to_N b1) as O1. rewrite E, Byte.of_to_N in O1.
  by injection O1.
Qed.

(** Two byte strings with the same hexadecimal rendering are equal. *)
Lemma hexlify_inj d1 d2 : hexlify d1 = hexlify d2 -> d1 = d2.
Proof.
  revert d2. induction d1 as [|b1 d1 IH]; intros [|b2 d2] Heq;
    try done; simpl in Heq.
  injection Heq as Ehigh Elow Htail.
  f_equal; [by apply byte_of_hex_digits | by apply IH].
Qed.

Lemma hexlify_expected_digest : hexlify expected_digest = expected_hash.
Proof. vm_compute. reflexivity. Qed.

Lemma truthy_hexlify d : d <> [] -> truthy (Some (hexlify d)) = true.
Proof. by destruct d. Qed.

(** ** The main block *)

Section MainBlockRuns.
Context {H : Hashlib}.
Variable repr_bytes : bytes -> string.
Variable str_float : Z -> string.

(** X15: Task 2 with a file it cannot read: [hash_file] prints its error,
    and the verdict is "Failed to hash the file."; nothing is raised. *)
Theorem task2_unreadable w :
  w_files w !! iso_path = None \/ w_files w !! iso_path = Some Denied ->
  exists reason w',
    task2 w = (Ok tt, w') /\
    w_stdout w' =
      w_stdout w ++ [ after_newline "Task 2"; "Error hashing file: " +:+ reason;
                      "Failed to hash the file." ].
Proof.
  intros [Hf | Hf]; unfold task2, hash_file; run_py with Hf;
    eexists _, _; (split; [reflexivity|]); simpl;
    by rewrite <- !app_assoc.
Qed.

(** A prefix of identifiers that can be hashed: the loop prints their lines
    and goes on with the rest of the list. *)
Lemma task1_loop_prefix data pre :
  (forall a, a ∈ pre -> can_hash a) ->
  forall w, exists w1,
    (forall rest,
       task1_loop repr_bytes str_float (pre ++ rest) data w =
       task1_loop repr_bytes str_float rest data w1) /\
    w_stdout w1 = w_stdout w ++ imap (task1_line_in repr_bytes str_float w data) pre /\
    w_reads w1 = (w_reads w + 2 * length pre)%nat /\
    w_timer w1 = w_timer w /\ w_files w1 = w_files w.
Proof.
  induction pre as [|a pre IH]; intros Hknown w.
  - exists w. repeat split; [by rewrite app_nil_r | simpl; lia].
  - assert (Ha : can_hash a) by (apply Hknown; left).
    destruct (IH (fun b Hb => Hknown b (list_elem_of_further _ _ _ Hb))
                (put_line (task1_line repr_bytes str_float a (digest_of a data)
                             (elapsed_in w)) (after_hash a data w)))
      as (w1 & Hrest & Hout & Hreads & Htimer & Hfiles).
    cbn [after_hash tick put_fed put_line w_timer w_reads w_stdout w_files] in *.
    exists w1. split; [|split; [|split; [|auto]]].
    + intros rest. rewrite <- Hrest. cbn [app task1_loop]. unfold py_bind.
      by rewrite (hash_returns _ _ _ Ha).
    + rewrite Hout, <- app_assoc, imap_cons. cbn [app]. do 2 f_equal.
      * unfold task1_line_in, elapsed_in. by rewrite Nat.mul_0_r, Nat.add_0_r.
      * apply imap_ext. intros k b _. unfold task1_line_in.
        cbn [compose after_hash tick put_fed put_line w_timer w_reads].
        assert (E : (S (S (w_reads w)) + 2 * k = w_reads w + 2 * S k)%nat) by lia.
        by rewrite E.
    + rewrite Hreads. cbn [length]. lia.
Qed.

Context {L : HashlibLaws H}.

(** X12: when the library knows every identifier of the list, the loop of
    Task 1 prints one line per identifier, in the order of the list, each
    with the identifier, the digest of the data and the time of that call
    alone, and reads the clock twice per identifier. *)
Theorem task1_prints_all data w :
  provides_all H ->
  exists w',
    task1_loop repr_bytes str_float algorithms data w = (Ok tt, w') /\
    w_stdout w' = w_stdout w ++ imap (task1_line_in repr_bytes str_float w data) algorithms /\
    w_reads w' = (w_reads w + 44)%nat.
Proof.
  intros Hall.
  destruct (task1_loop_prefix data algorithms
              (fun a Hin => supported_can_hash a Hin (Hall a Hin)) w)
    as (w1 & Hrest & Hout & Hreads & _).
  exists w1. specialize (Hrest []). rewrite app_nil_r in Hrest.
  split; [by rewrite Hrest | by split].
Qed.

(** X13: when the library lacks one identifier of the list, the loop of
    Task 1 prints the lines of the identifiers before it and then raises the
    [ValueError] of [hashlib.new], which nothing in the main block catches:
    the identifiers after it and the later tasks are never reached. *)
Theorem task1_stops_at_unknown data pre x post w :
  algorithms = pre ++ x :: post ->
  (forall a, a ∈ pre -> is_Some (hl_kind a)) ->
  hl_kind x = None ->
  exists w',
    task1_loop repr_bytes str_float algorithms data w =
      (Raise (ValueError ("unsupported hash type " +:+ x)), w') /\
    w_stdout w' = w_stdout w ++ imap (task1_line_in repr_bytes str_float w data) pre.
Proof.
  intros Hlist Hknown Hx.
  assert (Hpre : forall a, a ∈ pre -> can_hash a).
  { intros a Hin. apply supported_can_hash; [|by apply Hknown].
    rewrite Hlist. apply elem_of_app. by left. }
  rewrite Hlist.
  destruct (task1_loop_prefix data pre Hpre w)
    as (w1 & Hrest & Hout & _).
  exists (tick w1). split; [|done].
  rewrite Hrest. cbn [task1_loop]. unfold py_bind.
  by rewrite (hash_unsupported _ _ _ Hx).
Qed.

(** X14: Task 2 on a readable file, with an [md5] of fixed length: it
    prints its heading and one verdict, "Hash verification successful."
    exactly when the digest of the file's content is the sixteen bytes that
    [expected_hash] spells, and "Hash verification failed." otherwise. *)
Theorem task2_verdict n content w :
  hl_kind "md5" = Some (Fixed n) -> n <> 0%nat ->
  w_files w !! iso_path = Some (Regular content) ->
  exists verdict w',
    task2 w = (Ok tt, w') /\
    w_stdout w' = w_stdout w ++ [after_newline "Task 2"; verdict] /\
    (hl_fixed "md5" content = expected_digest ->
     verdict = "Hash verification successful.") /\
    (hl_fixed "md5" content <> expected_digest ->
     verdict = "Hash verification failed.").
Proof.
  intros Hk Hn Hf.
  assert (Hne : hl_fixed "md5" content <> []).
  { intros E. apply Hn. rewrite <- (hl_fixed_length "md5" n content Hk).
    by rewrite E. }
  unfold task2. unfold py_bind at 1. unfold print at 1. unfold py_bind at 1.
  rewrite (hash_file_fixed iso_path "md5" n content); [|done|done].
  rewrite (truthy_hexlify _ Hne).
  destruct (decide (Some (hexlify (hl_fixed "md5" content)) = Some expected_hash))
    as [Heq|Hdiff].
  - eexists _, _. split; [reflexivity|]. split; [simpl; by rewrite <- app_assoc|].
    split; [done|]. intros Hd. exfalso. apply Hd. apply hexlify_inj.
    rewrite hexlify_expected_digest. congruence.
  - eexists _, _. split; [reflexivity|]. split; [simpl; by rewrite <- app_assoc|].
    split; [|done]. intros Hd. exfalso. apply Hdiff.
    by rewrite Hd, hexlify_expected_digest.
Qed.

(** X16: Task 3 on a readable file, with an [md5] of fixed length [n]: it
    reads and hashes the file again and prints the digest as [2 n]
    hexadecimal digits after "MD5 hash of the file: ". *)
Theorem task3_prints_hash n content w :
  hl_kind "md5" = Some (Fixed n) -> n <> 0%nat ->
  w_files w !! iso_path = Some (Regular content) ->
  exists hex w',
    task3 w = (Ok tt, w') /\
    w_stdout w' =
      w_stdout w ++ [after_newline "Task 3"; "MD5 hash of the file: " +:+ hex] /\
    hex = hexlify (hl_fixed "md5" content) /\
    String.length hex = (2 * n)%nat /\
    w_fed w' = w_fed w ++ [("md5", content)].
Proof.
  intros Hk Hn Hf.
  assert (Hlen : length (hl_fixed "md5" content) = n)
    by (by apply hl_fixed_length).
  assert (Hne : hl_fixed "md5" content <> []).
  { intros E. apply Hn. by rewrite <- Hlen, E. }
  unfold task3. unfold py_bind at 1. unfold print at 1. unfold py_bind at 1.
  rewrite (hash_file_fixed iso_path "md5" n content); [|done|done].
  rewrite (truthy_hexlify _ Hne).
  eexists _, _. split; [reflexivity|]. simpl.
  split; [by rewrite <- app_assoc|]. split; [done|].
  split; [by rewrite hexlify_length, Hlen | done].
Qed.

End MainBlockRuns.

(** ** The rest of main.py on the reference library *)

Lemma ref_md6_unknown : hl_kind (Hashlib := ref_hashlib) "md6" = None.
Proof. vm_compute. reflexivity. Qed.

Lemma ref_md5_fixed : hl_kind (Hashlib := ref_hashlib) "md5" = Some (Fixed 16).
Proof. vm_compute. reflexivity. Qed.

(** The library without [mdc2] keeps the contract too. *)
Lemma lean_laws : HashlibLaws lean_hashlib.
Proof.
  split; cbn [hl_kind hl_fixed hl_xof lean_hashlib].
  - intros a n d Hk. unfold ref_fixed. rewrite Hk. apply pad_to_length.
  - intros a d n _. apply pad_to_length.
  - intros a Hin Hs. unfold lean_sizes in *.
    destruct (decide (a = "mdc2")) as [-> | Hne].
    + rewrite lookup_delete_eq in Hs. by destruct Hs.
    + rewrite lookup_delete_ne by done. by apply ref_xof_shake.
Qed.

Lemma ref_sha256_can_hash : can_hash (H := ref_hashlib) "sha256".
Proof. unfold can_hash. by rewrite ref_sha256_fixed. Qed.

Lemma supported_mdc2 : "mdc2" ∈ algorithms.
Proof. apply list_elem_of_In. vm_compute. tauto. Qed.

Lemma lean_mdc2_unknown : hl_kind (Hashlib := lean_hashlib) "mdc2" = None.
Proof. vm_compute. reflexivity. Qed.

(** The sizes of the main block can be built in the demo world. *)
Lemma demo_world_sizes :
  Forall (allocatable demo_world) [1000; 10000; 100000; 1000000; 10000000].
Proof. repeat constructor; vm_compute; congruence. Qed.

(** C3 as stated fails: [mdc2] is a supported identifier, the library
    without it keeps the contract, and with it [hash_with_algorithm] returns
    no digest for [mdc2] but raises the [ValueError] of [hashlib.new]. *)
Lemma hash_mdc2_no_digest :
  "mdc2" ∈ algorithms /\ HashlibLaws lean_hashlib /\
  hash_with_algorithm (H := lean_hashlib) [Byte.x61] "mdc2" demo_world =
    (Raise (ValueError "unsupported hash type mdc2"), tick demo_world).
Proof.
  split; [exact supported_mdc2|]. split; [exact lean_laws|].
  exact (hash_unsupported "mdc2" [Byte.x61] demo_world lean_mdc2_unknown).
Qed.

(** C7 as stated fails: on the library without [mdc2], hashing the empty
    byte string with the supported identifier [mdc2] raises. *)
Lemma hash_empty_mdc2_raises :
  "mdc2" ∈ algorithms /\ HashlibLaws lean_hashlib /\
  (hash_with_algorithm (H := lean_hashlib) [] "mdc2" demo_world).1 =
    Raise (ValueError "unsupported hash type mdc2").
Proof.
  split; [exact supported_mdc2|]. split; [exact lean_laws|].
  by rewrite (hash_unsupported "mdc2" [] demo_world lean_mdc2_unknown).
Qed.

(** C4 as stated fails: the speed test returns no sample for the supported
    identifier [mdc2] on the library without it, and none for the size
    [2 ^ 63] with [sha256], where [b'a' * size] raises [OverflowError]. *)
Lemma speed_test_raises :
  (generate_hash_speed_test (H := lean_hashlib) [1000; 10000] "mdc2" demo_world).1 =
    Raise (ValueError "unsupported hash type mdc2") /\
  (generate_hash_speed_test (H := ref_hashlib) [2 ^ 63] "sha256" demo_world).1 =
    Raise (OverflowError "cannot fit 'int' into an index-sized integer").
Proof.
  split.
  - unfold generate_hash_speed_test. cbn [speed_loop]. unfold py_bind.
    rewrite repeat_byte_allocatable by (vm_compute; intuition congruence).
    by rewrite (hash_unsupported "mdc2" _ demo_world lean_mdc2_unknown).
  - unfold generate_hash_speed_test. cbn [speed_loop]. unfold py_bind, repeat_byte.
    by rewrite decide_True by (right; vm_compute; reflexivity).
Qed.

Lemma hash_unsupported_propagates_witness :
  exists w',
    hash_with_algorithm (H := ref_hashlib) [Byte.x61] "md6" demo_world =
      (Raise (ValueError ("unsupported hash type " +:+ "md6")), w') /\
    w_reads w' = S (w_reads demo_world) /\ w_fed w' = w_fed demo_world.
Proof.
  exact (hash_unsupported_propagates (H := ref_hashlib) "md6" [Byte.x61]
           demo_world ref_md6_unknown).
Defined.


Lemma download_then_hash_witness :
  exists w1 w2,
    download_file "http://example.org/abc" "new.bin" demo_world = (Ok true, w1) /\
    hash_file (H := ref_hashlib) "new.bin" "sha256" w1 =
      (Ok (Some (hexlify (hl_fixed (Hashlib := ref_hashlib) "sha256"
                            [Byte.x61; Byte.x62; Byte.x63]))), w2).
Proof.
  apply (download_then_hash (H := ref_hashlib) "http://example.org/abc"
           "new.bin" [Byte.x61; Byte.x62; Byte.x63] "sha256" 32 demo_world).
  - vm_compute. reflexivity.
  - vm_compute. discriminate.
  - vm_compute. lia.
  - exact ref_sha256_fixed.
Defined.

Lemma speed_test_first_failure_witness :
  generate_hash_speed_test (H := ref_hashlib) [1000; 10000] "md6" demo_world =
    (Raise (ValueError ("unsupported hash type " +:+ "md6")), tick demo_world) /\
  generate_hash_speed_test (H := ref_hashlib) [2 ^ 63; 1000] "md6" demo_world =
    (Raise (OverflowError "cannot fit 'int' into an index-sized integer"),
     demo_world).
Proof.
  destruct (speed_test_first_failure (H := ref_hashlib) "md6" demo_world)
    as (_ & Hunknown & Hoverflow).
  split.
  - apply Hunknown; [exact ref_md6_unknown|].
    vm_compute. intuition congruence.
  - apply Hoverflow. vm_compute. reflexivity.
Defined.

Lemma speed_test_readings_witness :
  exists w',
    generate_hash_speed_test (H := ref_hashlib) [1000; 10000] "sha256" demo_world =
      (Ok (imap (fun k size =>
                   (size, w_timer demo_world (S (w_reads demo_world + 2 * k)) -
                          w_timer demo_world (w_reads demo_world + 2 * k)%nat))
             [1000; 10000]), w') /\
    w_reads w' = (w_reads demo_world + 4)%nat /\
    w_stdout w' = w_stdout demo_world /\ w_files w' = w_files demo_world.
Proof.
  apply (speed_test_readings (H := ref_hashlib) [1000; 10000] "sha256" demo_world
           ref_sha256_can_hash).
  repeat constructor; vm_compute; congruence.
Defined.

Lemma speed_test_then_plot_witness :
  exists samples w',
    generate_hash_speed_test (H := ref_hashlib)
      [1000; 10000; 100000; 1000000; 10000000] "sha256" demo_world =
      (Ok samples, w') /\
    exists times,
      length times = 5%nat /\
      Forall (fun t => 0 <= t) times /\
      plot_hash_speed samples [] =
        (Ok tt,
         [ PlotLine [1000; 10000; 100000; 1000000; 10000000] times;
           XLabel "Message Size (bytes)"; YLabel "Time (seconds)";
           Title "Hashing Speed vs Message Size"; Show ]).
Proof.
  exact (speed_test_then_plot (H := ref_hashlib)
           [1000; 10000; 100000; 1000000; 10000000] "sha256" demo_world []
           ref_sha256_can_hash demo_world_sizes demo_world_monotone).
Defined.

Lemma task1_prints_all_witness :
  exists w',
    task1_loop (H := ref_hashlib) hexlify (fun _ => "0.0") algorithms
      [Byte.x61] demo_world = (Ok tt, w') /\
    w_stdout w' =
      w_stdout demo_world ++
      imap (task1_line_in (H := ref_hashlib) hexlify (fun _ => "0.0")
              demo_world [Byte.x61]) algorithms /\
    w_reads w' = (w_reads demo_world + 44)%nat.
Proof.
  exact (task1_prints_all (L := ref_laws) hexlify (fun _ => "0.0") [Byte.x61]
           demo_world ref_provides).
Defined.

Lemma task1_stops_at_unknown_witness :
  exists w',
    task1_loop (H := lean_hashlib) hexlify (fun _ => "0.0") algorithms
      [Byte.x61] demo_world =
      (Raise (ValueError ("unsupported hash type " +:+ "mdc2")), w') /\
    w_stdout w' =
      w_stdout demo_world ++
      imap (task1_line_in (H := lean_hashlib) hexlify (fun _ => "0.0")
              demo_world [Byte.x61])
        [ "sha3_512"; "blake2s"; "md5"; "sha384"; "shake_256"; "sha3_384";
          "blake2b"; "sha1"; "sm3"; "ripemd160"; "sha3_224"; "shake_128" ].
Proof.
  apply (task1_stops_at_unknown (L := lean_laws) hexlify (fun _ => "0.0")
           [Byte.x61]
           [ "sha3_512"; "blake2s"; "md5"; "sha384"; "shake_256"; "sha3_384";
             "blake2b"; "sha1"; "sm3"; "ripemd160"; "sha3_224"; "shake_128" ]
           "mdc2"
           [ "sha512"; "whirlpool"; "md4"; "md5-sha1"; "sha512_256";
             "sha512_224"; "sha224"; "sha3_256"; "sha256" ]
           demo_world).
  - reflexivity.
  - intros a Hin.
    repeat (apply elem_of_cons in Hin as [-> | Hin]);
      first [ by inversion Hin | (vm_compute; eexists; reflexivity) ].
  - vm_compute. reflexivity.
Defined.

Lemma task2_verdict_witness :
  exists verdict w',
    task2 (H := ref_hashlib) (put_file iso_path (Regular expected_digest) demo_world) =
      (Ok tt, w') /\
    w_stdout w' =
      w_stdout (put_file iso_path (Regular expected_digest) demo_world) ++
      [after_newline "Task 2"; verdict] /\
    (hl_fixed (Hashlib := ref_hashlib) "md5" expected_digest = expected_digest ->
     verdict = "Hash verification successful.") /\
    (hl_fixed (Hashlib := ref_hashlib) "md5" expected_digest <> expected_digest ->
     verdict = "Hash verification failed.").
Proof.
  apply (task2_verdict (L := ref_laws) 16 expected_digest
           (put_file iso_path (Regular expected_digest) demo_world)).
  - exact ref_md5_fixed.
  - lia.
  - vm_compute. reflexivity.
Defined.

Lemma task2_unreadable_witness :
  exists reason w',
    task2 (H := ref_hashlib) demo_world = (Ok tt, w') /\
    w_stdout w' =
      w_stdout demo_world ++
      [ after_newline "Task 2"; "Error hashing file: " +:+ reason;
        "Failed to hash the file." ].
Proof.
  apply (task2_unreadable (H := ref_hashlib) demo_world).
  left. vm_compute. reflexivity.
Defined.

Lemma task3_prints_hash_witness :
  exists hex w',
    task3 (H := ref_hashlib) (put_file iso_path (Regular expected_digest) demo_world) =
      (Ok tt, w') /\
    w_stdout w' =
      w_stdout (put_file iso_path (Regular expected_digest) demo_world) ++
      [after_newline "Task 3"; "MD5 hash of the file: " +:+ hex] /\
    hex = hexlify (hl_fixed (Hashlib := ref_hashlib) "md5" expected_digest) /\
    String.length hex = (2 * 16)%nat /\
    w_fed w' =
      w_fed (put_file iso_path (Regular expected_digest) demo_world) ++
      [("md5", expected_digest)].
Proof.
  apply (task3_prints_hash (L := ref_laws) 16 expected_digest
           (put_file iso_path (Regular expected_digest) demo_world)).
  - exact ref_md5_fixed.
  - lia.
  - vm_compute. reflexivity.
Defined.
